(** * cr3dump: a shallow embedding of the CR3 dump kernel module

    Source: [src/artifacts/tracie/cr3-kmod/cr3dump.c].

    The module has two entry points.  [cr3_dump_init] walks the host's
    process list and prints, for every task that has a memory descriptor,
    its pid, its command name and the physical address of its page global
    directory.  [cr3_dump_exit] prints one line.

    The host kernel is modelled by a state holding the process list (in the
    order [for_each_process] yields it) and the kernel log.  The entry
    points are computations in a state monad over that state. *)

From Stdlib Require Import ZArith NArith Lia Ascii String List.
From Stdlib Require Import DecimalString HexadecimalString.
From Stdlib Require Import DecimalPos DecimalZ HexadecimalPos HexadecimalN.
From stdpp Require Import base option list strings gmap.

Local Open Scope Z_scope.

(** ** Host data: memory descriptors, tasks, log records *)

(** [struct mm_struct]: only the field the module reads.  [pgd] is the
    kernel virtual address of the root page table. *)
Record mm_struct := Build_mm { pgd : Z }.

(** [struct task_struct]: the four fields the module reads.  A pointer
    [struct mm_struct *] is [None] when it is [NULL] and [Some m] when it
    points to the descriptor [m].  [comm] holds the bytes of the array
    [comm[TASK_COMM_LEN]]. *)
Record task_struct := Build_task {
  pid : Z;
  comm : string;
  mm : option mm_struct;
  active_mm : option mm_struct
}.

(** One record of the kernel log: its level and its text. *)
Record printk_record := Build_record { level : Z; text : string }.

(** The part of the host the module can see: the process list, in the
    traversal order of [for_each_process], and the log written so far. *)
Record kernel := Build_kernel {
  tasks : list task_struct;
  log_buf : list printk_record
}.

(** What a C entry point hands back to its caller: nothing for a [void]
    function, an integer for an [int] function. *)
Inductive retval := RVoid | RInt (z : Z).

Global Instance mm_struct_eq_dec : EqDecision mm_struct.
Proof. solve_decision. Defined.
Global Instance task_struct_eq_dec : EqDecision task_struct.
Proof. solve_decision. Defined.
Global Instance printk_record_eq_dec : EqDecision printk_record.
Proof. solve_decision. Defined.
Global Instance retval_eq_dec : EqDecision retval.
Proof. solve_decision. Defined.

(** ** The state monad of kernel code *)

Definition M (A : Type) : Type := kernel -> A * kernel.

Global Instance M_ret : MRet M := fun A a k => (a, k).
Global Instance M_bind : MBind M :=
  fun A B f m k => let (a, k') := m k in f a k'.

(** Final state and returned value of a computation. *)
Definition exec {A} (m : M A) (k : kernel) : kernel := snd (m k).
Definition eval {A} (m : M A) (k : kernel) : A := fst (m k).

(** ** Host primitive: [printk] *)

Definition nl : string := String "010"%char EmptyString.
Definition KERN_SOH : string := String "001"%char EmptyString.
Definition KERN_INFO : string := KERN_SOH +:+ "6".
Definition LOGLEVEL_INFO : Z := 6.
Definition MESSAGE_LOGLEVEL_DEFAULT : Z := 4.

Definition BITS_PER_LONG : Z := 64.

(** Conversion to [unsigned long]. *)
Definition to_ulong (z : Z) : Z := z mod 2 ^ BITS_PER_LONG.

(** The variadic arguments the module passes to [printk]. *)
Inductive va_arg :=
| VInt (z : Z)
| VStr (s : string)
| VULong (z : Z).

(** The bytes of a C string: everything before the first NUL. *)
Fixpoint c_str (s : string) : string :=
  match s with
  | EmptyString => EmptyString
  | String c s' =>
      if Ascii.eqb c "000" then EmptyString else String c (c_str s')
  end.

(** [%d]: signed decimal. *)
Definition fmt_d (z : Z) : string :=
  DecimalString.NilZero.string_of_int (Z.to_int z).

(** [%lx]: lower-case hexadecimal of an [unsigned long], no padding. *)
Definition fmt_lx (z : Z) : string :=
  HexadecimalString.NilZero.string_of_uint
    (N.to_hex_uint (Z.to_N (to_ulong z))).

(** The three conversions that occur in the module's format strings.  A
    conversion that does not find an argument of its type ends the
    output. *)
Fixpoint vsnprintf (fmt : string) (args : list va_arg) : string :=
  match fmt with
  | EmptyString => EmptyString
  | String c rest =>
      if Ascii.eqb c "%" then
        match rest with
        | String "d" rest' =>
            match args with
            | VInt z :: args' => fmt_d z +:+ vsnprintf rest' args'
            | _ => EmptyString
            end
        | String "s" rest' =>
            match args with
            | VStr s :: args' => c_str s +:+ vsnprintf rest' args'
            | _ => EmptyString
            end
        | String "l" (String "x" rest') =>
            match args with
            | VULong z :: args' => fmt_lx z +:+ vsnprintf rest' args'
            | _ => EmptyString
            end
        | _ => String c (vsnprintf rest args)
        end
      else String c (vsnprintf rest args)
  end.

(** The level header of a message: [KERN_SOH] followed by a digit
    ['0'..'7'].  Without one the message gets the default level. *)
Definition printk_get_level (s : string) : Z * string :=
  match s with
  | String c (String d rest) =>
      if Ascii.eqb c "001" && (48 <=? Z.of_nat (nat_of_ascii d))
                           && (Z.of_nat (nat_of_ascii d) <=? 55)
      then (Z.of_nat (nat_of_ascii d) - 48, rest)
      else (MESSAGE_LOGLEVEL_DEFAULT, s)
  | _ => (MESSAGE_LOGLEVEL_DEFAULT, s)
  end.

(** [printk(fmt, ...)]: format the message, append one record to the log,
    return the number of characters written. *)
Definition printk (fmt : string) (args : list va_arg) : M Z :=
  fun k =>
    let (lvl, body) := printk_get_level fmt in
    let r := {| level := lvl; text := vsnprintf body args |} in
    (Z.of_nat (String.length (text r)),
     {| tasks := tasks k; log_buf := log_buf k ++ [r] |}).

(** ** Host primitive: [for_each_process] *)

Fixpoint iterate {A} (body : A -> M unit) (l : list A) : M unit :=
  match l with
  | [] => mret tt
  | x :: l' => _ ← body x; iterate body l'
  end.

(** [for_each_process(task) body]: run [body] on every task of the
    process list, in list order. *)
Definition for_each_process (body : task_struct -> M unit) : M unit :=
  fun k => iterate body (tasks k) k.

(** ** The module *)

Section cr3dump.

(** [virt_to_phys]: the host's translation of a kernel virtual address in
    the direct mapping to a physical address. *)
Variable virt_to_phys : Z -> Z.

(** Body of the loop in [cr3_dump_init]; [continue] ends the body. *)
Definition cr3_dump_task (task : task_struct) : M unit :=
  let mm := task.(mm) in
  let mm := match mm with None => task.(active_mm) | Some _ => mm end in
  match mm with
  | None => mret tt
  | Some mm =>
      let cr3 := to_ulong (virt_to_phys mm.(pgd)) in
      _ ← printk (KERN_INFO +:+ "PID: %d | Comm: %s | CR3 (PGD phys): 0x%lx" +:+ nl)
                 [VInt task.(pid); VStr task.(comm); VULong cr3];
      mret tt
  end.

Definition cr3_dump_init : M retval :=
  _ ← printk (KERN_INFO +:+ "=== [CR3 Dump Module Loaded] ===" +:+ nl) [];
  _ ← for_each_process cr3_dump_task;
  mret (RInt 0).

Definition cr3_dump_exit : M retval :=
  _ ← printk (KERN_INFO +:+ "=== [CR3 Dump Module Unloaded] ===" +:+ nl) [];
  mret RVoid.

End cr3dump.

(** ** Observing a run *)

(** The records a computation appends to the log when started in [k]. *)
Definition emitted {A} (m : M A) (k : kernel) : list printk_record :=
  drop (length (log_buf k)) (log_buf (exec m k)).

Definition banner_loaded : printk_record :=
  {| level := LOGLEVEL_INFO; text := "=== [CR3 Dump Module Loaded] ===" +:+ nl |}.

Definition banner_unloaded : printk_record :=
  {| level := LOGLEVEL_INFO; text := "=== [CR3 Dump Module Unloaded] ===" +:+ nl |}.

(** The text of a per-process line, from its three fields:
    [PID: <integer> | Comm: <string> | CR3 (PGD phys): 0x<hex>]. *)
Definition report_line (p : Z) (name : string) (addr : Z) : string :=
  "PID: " +:+ fmt_d p +:+ " | Comm: " +:+ name +:+
  " | CR3 (PGD phys): 0x" +:+ fmt_lx addr +:+ nl.

(** A per-process line is a record whose text starts with [PID: ]. *)
Definition is_report_line (r : printk_record) : bool :=
  String.prefix "PID: " (text r).

Definition report_lines (l : list printk_record) : list printk_record :=
  filter (fun r => is_report_line r = true) l.

(** The per-process lines of a run, as a set of texts. *)
Definition line_set (l : list printk_record) : gset string :=
  list_to_set (text <$> report_lines l).

(** The descriptor of a task as the specification words it: the primary
    descriptor if present, else the fallback, else none. *)
Definition resolve_mm (t : task_struct) : option mm_struct :=
  match mm t with
  | Some m => Some m
  | None => active_mm t
  end.

Definition has_mm (t : task_struct) : bool :=
  bool_decide (is_Some (mm t) \/ is_Some (active_mm t)).

(** A string without NUL byte: what a C string can hold before its
    terminator. *)
Definition nul_free (s : string) : bool :=
  forallb (fun c => negb (Ascii.eqb c "000")) (list_ascii_of_string s).

(** ** Reading the fields back from a per-process line *)

Fixpoint strip_prefix (p l : list ascii) : option (list ascii) :=
  match p, l with
  | [], _ => Some l
  | a :: p', b :: l' => if Ascii.eqb a b then strip_prefix p' l' else None
  | _ :: _, [] => None
  end.

Fixpoint span (P : ascii -> bool) (l : list ascii) : list ascii * list ascii :=
  match l with
  | [] => ([], [])
  | a :: l' =>
      if P a then let (x, y) := span P l' in (a :: x, y) else ([], l)
  end.

Definition in_range (lo hi a : ascii) : bool :=
  (nat_of_ascii lo <=? nat_of_ascii a)%nat && (nat_of_ascii a <=? nat_of_ascii hi)%nat.

Definition is_dec_char (a : ascii) : bool :=
  Ascii.eqb a "-" || in_range "0" "9" a.

Definition is_hex_char (a : ascii) : bool :=
  in_range "0" "9" a || in_range "a" "f" a.

(** [parse_report s] reads a per-process line from both ends: the pid
    after [PID: ], the address before the final newline, and the name in
    between.  It returns the pid, the name and the address. *)
Definition parse_report (s : string) : option (Z * string * Z) :=
  l1 ← strip_prefix (list_ascii_of_string "PID: ") (list_ascii_of_string s);
  let '(d, l2) := span is_dec_char l1 in
  l3 ← strip_prefix (list_ascii_of_string " | Comm: ") l2;
  l4 ← strip_prefix (list_ascii_of_string nl) (rev l3);
  let '(h, l5) := span is_hex_char l4 in
  l6 ← strip_prefix (rev (list_ascii_of_string " | CR3 (PGD phys): 0x")) l5;
  p ← DecimalString.NilZero.int_of_string (string_of_list_ascii d);
  a ← HexadecimalString.NilZero.uint_of_string (string_of_list_ascii (rev h));
  Some (Z.of_int p, string_of_list_ascii (rev l6), Z.of_N (N.of_hex_uint a)).

Section reports.

Variable virt_to_phys : Z -> Z.

(** The record the specification asks for a task: none without a
    descriptor, else one informational line with the task's pid, its name
    and the translated root of the resolved descriptor. *)
Definition task_report (t : task_struct) : option printk_record :=
  m ← resolve_mm t;
  Some {| level := LOGLEVEL_INFO;
          text := report_line (pid t) (c_str (comm t)) (virt_to_phys (pgd m)) |}.

End reports.

(** ** A concrete host *)

(** The x86-64 direct mapping: physical address 0 is mapped at
    [PAGE_OFFSET]. *)
Definition PAGE_OFFSET : Z := 0xffff888000000000.
Definition direct_map (v : Z) : Z := v - PAGE_OFFSET.

Definition D1 : mm_struct := {| pgd := 0xffff888000001000 |}.
Definition D2 : mm_struct := {| pgd := 0xffff888000002000 |}.

Definition init_proc : task_struct :=
  {| pid := 1; comm := "init"; mm := Some D1; active_mm := None |}.
Definition worker_proc : task_struct :=
  {| pid := 50; comm := "worker"; mm := None; active_mm := Some D2 |}.
Definition zombie_proc : task_struct :=
  {| pid := 70; comm := "zombie"; mm := None; active_mm := None |}.

Definition scenario : kernel :=
  {| tasks := [init_proc; worker_proc; zombie_proc]; log_buf := [] |}.

(** A user task that has both pointers set, and a translation that
    differs from [direct_map] at the root of its fallback descriptor
    only. *)
Definition both_proc : task_struct :=
  {| pid := 7; comm := "sh"; mm := Some D1; active_mm := Some D2 |}.

Definition patched_map (v : Z) : Z :=
  if v =? pgd D2 then 0 else direct_map v.

(** A task whose [comm] array holds the name [init], its terminator,
    and bytes left over from an earlier, longer name. *)
Definition stale_proc : task_struct :=
  {| pid := 9; comm := "init" +:+ String "000" "-helper";
     mm := Some D1; active_mm := None |}.

(** A kernel thread that borrows the descriptor of [init_proc]. *)
Definition borrower_proc : task_struct :=
  {| pid := 1; comm := "init"; mm := None; active_mm := Some D1 |}.

(** * Properties *)

(** ** The monad and the host primitives *)

Lemma printk_info body args k :
  printk (KERN_INFO +:+ body) args k =
  (Z.of_nat (String.length (vsnprintf body args)),
   {| tasks := tasks k;
      log_buf := log_buf k ++
        [{| level := LOGLEVEL_INFO; text := vsnprintf body args |}] |}).
Proof. reflexivity. Qed.

(** The loop runs the body once on each element, first to last. *)
Lemma iterate_foldl {A} (body : A -> M unit) l k :
  exec (iterate body l) k = foldl (fun k x => exec (body x) k) k l.
Proof.
  revert k. induction l as [|x l IH]; intros k; [reflexivity|].
  cbn. rewrite <- IH. unfold exec, mbind, M_bind. cbn.
  destruct (body x k) as [[] k1]. reflexivity.
Qed.

Lemma emitted_app {A} (m : M A) k out :
  log_buf (exec m k) = log_buf k ++ out -> emitted m k = out.
Proof. unfold emitted. intros ->. apply drop_app_length. Qed.

(** ** Formatting *)

Lemma to_ulong_idemp z : to_ulong (to_ulong z) = to_ulong z.
Proof. unfold to_ulong. apply Z.mod_mod. unfold BITS_PER_LONG. lia. Qed.

Lemma to_ulong_range z : 0 <= to_ulong z < 2 ^ BITS_PER_LONG.
Proof. unfold to_ulong. apply Z.mod_pos_bound. unfold BITS_PER_LONG. lia. Qed.

Lemma fmt_lx_to_ulong z : fmt_lx (to_ulong z) = fmt_lx z.
Proof. unfold fmt_lx. now rewrite to_ulong_idemp. Qed.

Lemma report_line_to_ulong p n a :
  report_line p n (to_ulong a) = report_line p n a.
Proof. unfold report_line. now rewrite fmt_lx_to_ulong. Qed.

Lemma is_report_line_report lvl p n a :
  is_report_line {| level := lvl; text := report_line p n a |} = true.
Proof. unfold is_report_line, report_line. cbn. now destruct (fmt_d p +:+ _). Qed.

(** What [%s] prints of an array that holds a name: the name itself,
    whether the array ends with it or goes on with a NUL and more
    bytes. *)
Lemma c_str_of_name n :
  nul_free n = true ->
  c_str n = n /\ forall rest, c_str (n +:+ String "000" rest) = n.
Proof.
  unfold nul_free. induction n as [|c n IH]; [now split|].
  cbn [list_ascii_of_string forallb]. intros H.
  apply andb_prop in H as [Hc H]. apply negb_true_iff in Hc.
  destruct (IH H) as [IH1 IH2]. split.
  - cbn [c_str]. now rewrite Hc, IH1.
  - intros rest. change (String c n +:+ String "000" rest)
      with (String c (n +:+ String "000" rest)).
    cbn [c_str]. now rewrite Hc, IH2.
Qed.

(** Every array holds one name in that sense, and [%s] prints it. *)
Lemma c_str_holds_name s :
  nul_free (c_str s) = true /\
  (s = c_str s \/ exists rest, s = c_str s +:+ String "000" rest).
Proof.
  unfold nul_free. induction s as [|c s [IHn IHs]]; [split; [reflexivity | now left]|].
  cbn [c_str]. destruct (Ascii.eqb c "000") eqn:Hc.
  - apply Ascii.eqb_eq in Hc as ->. split; [reflexivity|]. right. now exists s.
  - split.
    + cbn [list_ascii_of_string forallb]. now rewrite Hc, IHn.
    + destruct IHs as [IHs | [rest IHs]].
      * left. now f_equal.
      * right. exists rest.
        change (String c (c_str s) +:+ String "000" rest)
          with (String c (c_str s +:+ String "000" rest)).
        now f_equal.
Qed.

Lemma vsnprintf_report p c a :
  vsnprintf ("PID: %d | Comm: %s | CR3 (PGD phys): 0x%lx" +:+ nl)
            [VInt p; VStr c; VULong a]
  = report_line p (c_str c) a.
Proof. reflexivity. Qed.

(** ** Reading a per-process line back *)

Lemma chars_app s1 s2 :
  list_ascii_of_string (s1 +:+ s2) =
  list_ascii_of_string s1 ++ list_ascii_of_string s2.
Proof. induction s1 as [|a s1 IH]; simpl; [reflexivity | now f_equal]. Qed.

Lemma strip_prefix_app p l : strip_prefix p (p ++ l) = Some l.
Proof.
  induction p as [|a p IH]; cbn; [reflexivity|].
  now rewrite Ascii.eqb_refl.
Qed.

Lemma span_app P l l' :
  forallb P l = true ->
  head (map P l') <> Some true ->
  span P (l ++ l') = (l, l').
Proof.
  intros Hl Hl'. induction l as [|a l IH]; cbn in *.
  - destruct l' as [|b l']; cbn in *; [reflexivity|].
    destruct (P b); [congruence | reflexivity].
  - apply andb_prop in Hl as [-> Hl]. now rewrite IH.
Qed.

Lemma dec_uint_chars d :
  forallb is_dec_char
    (list_ascii_of_string (DecimalString.NilEmpty.string_of_uint d)) = true.
Proof. induction d; cbn; auto. Qed.

Lemma hex_uint_chars d :
  forallb is_hex_char
    (list_ascii_of_string (HexadecimalString.NilEmpty.string_of_uint d)) = true.
Proof. induction d; cbn; auto. Qed.

Lemma fmt_d_chars z :
  forallb is_dec_char (list_ascii_of_string (fmt_d z)) = true.
Proof.
  unfold fmt_d. destruct (Z.to_int z) as [d|d]; cbn.
  - destruct d; try apply dec_uint_chars; reflexivity.
  - destruct d; try apply dec_uint_chars; reflexivity.
Qed.

Lemma fmt_lx_chars z :
  forallb is_hex_char (list_ascii_of_string (fmt_lx z)) = true.
Proof.
  unfold fmt_lx. destruct (N.to_hex_uint _) as [|d|d|d|d|d|d|d|d|d|d|d|d|d|d|d|d];
    try reflexivity; apply hex_uint_chars.
Qed.

Lemma fmt_d_parse z :
  DecimalString.NilZero.int_of_string (fmt_d z) = Some (Z.to_int z).
Proof.
  unfold fmt_d. apply DecimalString.NilZero.isi.
  - destruct z; cbn; try discriminate.
    intros [= H]. now apply DecimalPos.Unsigned.to_uint_nonnil in H.
  - destruct z; cbn; try discriminate.
    intros [= H]. now apply DecimalPos.Unsigned.to_uint_nonnil in H.
Qed.

Lemma fmt_lx_parse z :
  HexadecimalString.NilZero.uint_of_string (fmt_lx z) =
  Some (N.to_hex_uint (Z.to_N (to_ulong z))).
Proof.
  unfold fmt_lx. apply HexadecimalString.NilZero.usu.
  destruct (Z.to_N (to_ulong z)); cbn; [discriminate|].
  apply HexadecimalPos.Unsigned.to_uint_nonnil.
Qed.

Lemma forallb_rev {A} (P : A -> bool) l :
  forallb P (rev l) = forallb P l.
Proof.
  induction l as [|a l IH]; cbn; [reflexivity|].
  rewrite forallb_app, IH. cbn. rewrite andb_true_r. apply andb_comm.
Qed.

(** Whatever the name contains, the three fields of a per-process line
    are read back from it. *)
Lemma parse_report_line p n a :
  parse_report (report_line p n a) = Some (p, n, to_ulong a).
Proof.
  unfold parse_report, report_line.
  rewrite !chars_app, strip_prefix_app. cbn [mbind option_bind].
  rewrite (span_app _ _ _ (fmt_d_chars p)) by (cbn; discriminate).
  rewrite strip_prefix_app. cbn [mbind option_bind].
  rewrite !rev_app_distr, <- !app_assoc.
  change (rev (list_ascii_of_string nl)) with (list_ascii_of_string nl).
  rewrite strip_prefix_app. cbn [mbind option_bind].
  rewrite span_app.
  2: { rewrite forallb_rev. apply fmt_lx_chars. }
  2: { cbn. discriminate. }
  rewrite strip_prefix_app. cbn [mbind option_bind].
  rewrite string_of_list_ascii_of_string, fmt_d_parse. cbn [mbind option_bind].
  rewrite !rev_involutive, !string_of_list_ascii_of_string, fmt_lx_parse.
  cbn [mbind option_bind].
  rewrite DecimalZ.of_to, HexadecimalN.Unsigned.of_to, Z2N.id
    by apply to_ulong_range.
  reflexivity.
Qed.

Section run.

Variable virt_to_phys : Z -> Z.

(** One pass of the loop body: the task list is left alone and the log
    grows by the task's record, if it has one. *)
Lemma cr3_dump_task_run t k :
  cr3_dump_task virt_to_phys t k =
  (tt, {| tasks := tasks k;
          log_buf := log_buf k ++ option_list (task_report virt_to_phys t) |}).
Proof.
  unfold cr3_dump_task, task_report, resolve_mm.
  destruct t as [p c [m|] [a|]]; cbn -[printk String.append vsnprintf report_line].
  1-3: unfold mbind, M_bind;
       rewrite printk_info, vsnprintf_report, report_line_to_ulong; reflexivity.
  destruct k; cbn. now rewrite app_nil_r.
Qed.

(** The loop over a list of tasks appends their records in list order. *)
Lemma iterate_cr3_dump_task ts k :
  iterate (cr3_dump_task virt_to_phys) ts k =
  (tt, {| tasks := tasks k;
          log_buf := log_buf k ++ omap (task_report virt_to_phys) ts |}).
Proof.
  revert k. induction ts as [|t ts IH]; intros k.
  - destruct k; cbn. now rewrite app_nil_r.
  - cbn [iterate]. unfold mbind at 1, M_bind at 1.
    rewrite cr3_dump_task_run, IH. cbn [tasks log_buf omap list_omap].
    rewrite <- app_assoc. do 3 f_equal.
    destruct (task_report virt_to_phys t); reflexivity.
Qed.

Lemma cr3_dump_init_run k :
  cr3_dump_init virt_to_phys k =
  (RInt 0,
   {| tasks := tasks k;
      log_buf := log_buf k ++
        banner_loaded :: omap (task_report virt_to_phys) (tasks k) |}).
Proof.
  unfold cr3_dump_init, mbind, M_bind. rewrite printk_info.
  unfold for_each_process. rewrite iterate_cr3_dump_task.
  cbn [tasks log_buf]. now rewrite <- app_assoc.
Qed.

Lemma cr3_dump_exit_run k :
  cr3_dump_exit k =
  (RVoid, {| tasks := tasks k; log_buf := log_buf k ++ [banner_unloaded] |}).
Proof. reflexivity. Qed.

Lemma cr3_dump_task_emitted t k :
  emitted (cr3_dump_task virt_to_phys t) k =
  option_list (task_report virt_to_phys t).
Proof. apply emitted_app. unfold exec. now rewrite cr3_dump_task_run. Qed.

Lemma cr3_dump_init_emitted k :
  emitted (cr3_dump_init virt_to_phys) k =
  banner_loaded :: omap (task_report virt_to_phys) (tasks k).
Proof. apply emitted_app. unfold exec. now rewrite cr3_dump_init_run. Qed.

Lemma cr3_dump_exit_emitted k : emitted cr3_dump_exit k = [banner_unloaded].
Proof. apply emitted_app. reflexivity. Qed.

Lemma task_report_is_report_line t r :
  task_report virt_to_phys t = Some r -> is_report_line r = true.
Proof.
  unfold task_report. destruct (resolve_mm t); cbn; [|discriminate].
  intros [= <-]. apply is_report_line_report.
Qed.

Lemma report_lines_omap ts :
  report_lines (omap (task_report virt_to_phys) ts) =
  omap (task_report virt_to_phys) ts.
Proof.
  unfold report_lines. induction ts as [|t ts IH]; [reflexivity|].
  cbn. destruct (task_report virt_to_phys t) as [r|] eqn:Hr; [|exact IH].
  rewrite filter_cons_True by (now apply task_report_is_report_line in Hr).
  now rewrite IH.
Qed.

Lemma cr3_dump_init_report_lines k :
  report_lines (emitted (cr3_dump_init virt_to_phys) k) =
  omap (task_report virt_to_phys) (tasks k).
Proof.
  rewrite cr3_dump_init_emitted. unfold report_lines.
  rewrite filter_cons_False by (cbn; discriminate).
  apply report_lines_omap.
Qed.

(** What a task with a descriptor contributes. *)
Lemma task_report_has_mm t :
  is_Some (mm t) \/ is_Some (active_mm t) ->
  exists m, resolve_mm t = Some m /\
    task_report virt_to_phys t =
    Some {| level := LOGLEVEL_INFO;
            text := report_line (pid t) (c_str (comm t))
                                (virt_to_phys (pgd m)) |}.
Proof.
  unfold task_report, resolve_mm.
  destruct (mm t) as [m|]; [intros _; now exists m|].
  destruct (active_mm t) as [m|]; [intros _; now exists m|].
  intros [[? [=]]|[? [=]]].
Qed.

Lemma task_report_no_mm t :
  mm t = None -> active_mm t = None -> task_report virt_to_phys t = None.
Proof. unfold task_report, resolve_mm. now intros -> ->. Qed.

Lemma has_mm_false t : has_mm t = false -> task_report virt_to_phys t = None.
Proof.
  unfold has_mm. intros H. apply bool_decide_eq_false in H.
  apply task_report_no_mm.
  - destruct (mm t); [|reflexivity]. destruct H. left. eauto.
  - destruct (active_mm t); [|reflexivity]. destruct H. right. eauto.
Qed.

(** As many records as processes with a descriptor. *)
Lemma length_omap_task_report ts :
  length (omap (task_report virt_to_phys) ts) =
  length (filter (fun t => has_mm t = true) ts).
Proof.
  induction ts as [|t ts IH]; [reflexivity|].
  cbn [omap list_omap]. destruct (has_mm t) eqn:Hmm.
  - rewrite filter_cons_True by assumption.
    destruct (task_report_has_mm t) as (m & _ & ->);
      [now apply bool_decide_eq_true in Hmm|].
    cbn. now rewrite IH.
  - rewrite filter_cons_False by congruence.
    now rewrite (has_mm_false t Hmm).
Qed.

End run.

(** ** The claims *)

Section claims.

Variable virt_to_phys : Z -> Z.

(** C1. The lines after the banner split into one chunk per process of
    the table, in table order; the chunk of a process that has a primary
    or a fallback memory descriptor is exactly one line, and the pid and
    the name read back from that line are the pid and the name held in the
    process's handle: the name is the run of bytes of [comm] before its
    first NUL, all of [comm] when it holds none. *)
Theorem one_line_per_process_with_descriptor k :
  exists chunks,
    emitted (cr3_dump_init virt_to_phys) k = banner_loaded :: concat chunks /\
    Forall2 (fun t chunk =>
               chunk = emitted (cr3_dump_task virt_to_phys t) k /\
               (is_Some (mm t) \/ is_Some (active_mm t) ->
                exists r name a, chunk = [r] /\
                  is_report_line r = true /\
                  parse_report (text r) = Some (pid t, name, a) /\
                  nul_free name = true /\
                  (comm t = name \/
                   exists rest, comm t = name +:+ String "000" rest)))
            (tasks k) chunks.
Proof.
  exists ((fun t => option_list (task_report virt_to_phys t)) <$> tasks k).
  split.
  - rewrite cr3_dump_init_emitted. f_equal.
    induction (tasks k) as [|t ts IH]; [reflexivity|].
    cbn. rewrite <- IH. now destruct (task_report virt_to_phys t).
  - apply Forall2_fmap_r, Forall_Forall2_diag, Forall_forall.
    intros t _. split; [now rewrite cr3_dump_task_emitted|].
    intros Hmm. destruct (task_report_has_mm virt_to_phys t Hmm) as (m & _ & ->).
    destruct (c_str_holds_name (comm t)) as [Hfree Hname].
    exists {| level := LOGLEVEL_INFO;
              text := report_line (pid t) (c_str (comm t))
                                  (virt_to_phys (pgd m)) |},
           (c_str (comm t)), (to_ulong (virt_to_phys (pgd m))).
    split; [reflexivity|].
    split; [apply is_report_line_report|].
    split; [cbn [text]; apply parse_report_line|].
    split; assumption.
Qed.

(** C2. A process whose primary and fallback memory descriptors are both
    absent is skipped: the loop body leaves the whole state as it found
    it, so no line and no error record is written for it, and a run over a
    table that contains the process still returns success and emits what
    it emits on the table without the process. *)
Theorem process_without_descriptor_is_skipped t :
  mm t = None -> active_mm t = None ->
  (forall k, cr3_dump_task virt_to_phys t k = (tt, k)) /\
  (forall k, emitted (cr3_dump_task virt_to_phys t) k = []) /\
  (forall ts1 ts2 lg,
     eval (cr3_dump_init virt_to_phys)
          {| tasks := ts1 ++ t :: ts2; log_buf := lg |} = RInt 0 /\
     emitted (cr3_dump_init virt_to_phys)
             {| tasks := ts1 ++ t :: ts2; log_buf := lg |} =
     emitted (cr3_dump_init virt_to_phys)
             {| tasks := ts1 ++ ts2; log_buf := lg |}).
Proof.
  intros Hmm Hact. pose proof (task_report_no_mm virt_to_phys t Hmm Hact) as Hrep.
  split; [|split].
  - intros k. rewrite cr3_dump_task_run, Hrep. destruct k; cbn.
    now rewrite app_nil_r.
  - intros k. now rewrite cr3_dump_task_emitted, Hrep.
  - intros ts1 ts2 lg. split.
    + unfold eval. now rewrite cr3_dump_init_run.
    + rewrite !cr3_dump_init_emitted. cbn [tasks]. f_equal.
      rewrite !omap_app. cbn. now rewrite Hrep.
Qed.

(** C3. The loop body resolves the descriptor in a fixed order.  With a
    primary descriptor the line is built from it, whatever the fallback
    pointer holds, absent or present: the fallback is not consulted.
    Without a primary descriptor the line is built from the fallback.
    Without either, nothing is written.  A whole run is the banner
    followed by what the body writes for each process of the table. *)
Theorem descriptor_preference_order p c k :
  (forall m fb,
     emitted (cr3_dump_task virt_to_phys (Build_task p c (Some m) fb)) k =
     [{| level := LOGLEVEL_INFO;
         text := report_line p (c_str c) (virt_to_phys (pgd m)) |}]) /\
  (forall fb,
     emitted (cr3_dump_task virt_to_phys (Build_task p c None (Some fb))) k =
     [{| level := LOGLEVEL_INFO;
         text := report_line p (c_str c) (virt_to_phys (pgd fb)) |}]) /\
  emitted (cr3_dump_task virt_to_phys (Build_task p c None None)) k = [] /\
  emitted (cr3_dump_init virt_to_phys) k =
  banner_loaded ::
    concat ((fun t => emitted (cr3_dump_task virt_to_phys t) k) <$> tasks k).
Proof.
  repeat split; intros; rewrite ?cr3_dump_task_emitted; try reflexivity.
  rewrite cr3_dump_init_emitted. f_equal.
  induction (tasks k) as [|t ts IH]; [reflexivity|].
  cbn. rewrite <- IH, cr3_dump_task_emitted.
  now destruct (task_report virt_to_phys t).
Qed.

(** C4. On the table (1, init, D1), (50, worker, absent, D2),
    (70, zombie, absent, absent), with D1's root translated to 0x1000 and
    D2's root to 0x2000, a run emits the banner, then the line of pid 1
    with address 0x1000, then the line of pid 50 with address 0x2000, and
    nothing for pid 70. *)
Theorem scenario_output d1 d2 lg :
  virt_to_phys (pgd d1) = 0x1000 ->
  virt_to_phys (pgd d2) = 0x2000 ->
  emitted (cr3_dump_init virt_to_phys)
    {| tasks :=
         [ {| pid := 1; comm := "init"; mm := Some d1; active_mm := None |};
           {| pid := 50; comm := "worker"; mm := None; active_mm := Some d2 |};
           {| pid := 70; comm := "zombie"; mm := None; active_mm := None |} ];
       log_buf := lg |} =
  [ {| level := LOGLEVEL_INFO;
       text := "=== [CR3 Dump Module Loaded] ===" +:+ nl |};
    {| level := LOGLEVEL_INFO;
       text := "PID: 1 | Comm: init | CR3 (PGD phys): 0x1000" +:+ nl |};
    {| level := LOGLEVEL_INFO;
       text := "PID: 50 | Comm: worker | CR3 (PGD phys): 0x2000" +:+ nl |} ].
Proof.
  intros H1 H2. rewrite cr3_dump_init_emitted.
  cbn [tasks omap list_omap]. unfold task_report, resolve_mm.
  cbn [mm active_mm pid comm mbind option_bind]. rewrite H1, H2.
  reflexivity.
Qed.

(** C5. A run of [cr3_dump_init] emits the activation banner first and
    once: every record after it is a per-process line, and the banner is
    not one.  [cr3_dump_exit] emits its banner and nothing else. *)
Theorem one_banner_first k :
  (exists rest,
     emitted (cr3_dump_init virt_to_phys) k = banner_loaded :: rest /\
     Forall (fun r => is_report_line r = true /\ r <> banner_loaded) rest) /\
  is_report_line banner_loaded = false /\
  length (filter (fun r => r = banner_loaded)
                 (emitted (cr3_dump_init virt_to_phys) k)) = 1%nat /\
  emitted cr3_dump_exit k = [banner_unloaded].
Proof.
  assert (Hrest : Forall (fun r => is_report_line r = true /\ r <> banner_loaded)
                         (omap (task_report virt_to_phys) (tasks k))).
  { apply Forall_forall. intros r Hr.
    apply list_elem_of_omap in Hr as (t & _ & Ht).
    apply task_report_is_report_line in Ht. split; [exact Ht|].
    intros ->. discriminate Ht. }
  split; [|split; [|split]].
  - eexists. split; [apply cr3_dump_init_emitted | exact Hrest].
  - reflexivity.
  - rewrite cr3_dump_init_emitted, filter_cons_True by reflexivity.
    cbn [length]. f_equal. apply length_zero_iff_nil.
    induction Hrest as [|r rest [_ Hr] _ IH]; [reflexivity|].
    now rewrite filter_cons_False.
  - apply cr3_dump_exit_emitted.
Qed.

(** C6. Every per-process line of a run comes from a process of the table
    with a resolved descriptor, and its text is
    [PID: <pid> | Comm: <name> | CR3 (PGD phys): 0x<hex>] followed by the
    line terminator, where [<hex>] is the hexadecimal writing of
    [virt_to_phys] of the descriptor's [pgd] as an [unsigned long]. *)
Theorem report_line_format k r :
  r ∈ emitted (cr3_dump_init virt_to_phys) k ->
  is_report_line r = true ->
  exists t m,
    t ∈ tasks k /\ resolve_mm t = Some m /\
    level r = LOGLEVEL_INFO /\
    text r = "PID: " +:+ fmt_d (pid t) +:+ " | Comm: " +:+ c_str (comm t) +:+
             " | CR3 (PGD phys): 0x" +:+ fmt_lx (virt_to_phys (pgd m)) +:+ nl /\
    HexadecimalString.NilZero.uint_of_string (fmt_lx (virt_to_phys (pgd m))) =
      Some (N.to_hex_uint (Z.to_N (to_ulong (virt_to_phys (pgd m))))) /\
    parse_report (text r) =
      Some (pid t, c_str (comm t), to_ulong (virt_to_phys (pgd m))).
Proof.
  rewrite cr3_dump_init_emitted. intros Hin Hrep.
  apply elem_of_cons in Hin as [-> | Hin]; [discriminate Hrep|].
  apply list_elem_of_omap in Hin as (t & Ht & Hr).
  unfold task_report in Hr. destruct (resolve_mm t) as [m|] eqn:Hm; [|discriminate].
  cbn in Hr. injection Hr as <-. exists t, m.
  repeat split; try assumption.
  - apply fmt_lx_parse.
  - apply parse_report_line.
Qed.

(** C7. Load, unload, load again: the second run of [cr3_dump_init]
    emits the same set of per-process lines as the first.  This also
    holds when the host yields the same processes in another order the
    second time. *)
Theorem same_lines_on_second_run k :
  line_set (emitted (cr3_dump_init virt_to_phys) k) =
  line_set (emitted (cr3_dump_init virt_to_phys)
              (exec cr3_dump_exit (exec (cr3_dump_init virt_to_phys) k))) /\
  (forall ts',
     tasks k ≡ₚ ts' ->
     line_set (emitted (cr3_dump_init virt_to_phys) k) =
     line_set (emitted (cr3_dump_init virt_to_phys)
                 {| tasks := ts';
                    log_buf := log_buf (exec cr3_dump_exit
                                 (exec (cr3_dump_init virt_to_phys) k)) |})).
Proof.
  unfold line_set. split.
  - rewrite !cr3_dump_init_report_lines. unfold exec.
    now rewrite cr3_dump_init_run, cr3_dump_exit_run.
  - intros ts' Hperm. rewrite !cr3_dump_init_report_lines. cbn [tasks].
    apply leibniz_equiv. now rewrite Hperm.
Qed.

(** C8. The per-process lines of a run are the records of the processes
    of the table, taken in table order, at most one per process: the lines
    of a table [ts1 ++ ts2] are the lines of [ts1] followed by the lines
    of [ts2], and the pids read back from the lines are the pids of the
    processes that have a descriptor, in table order. *)
Theorem lines_in_enumeration_order k :
  report_lines (emitted (cr3_dump_init virt_to_phys) k) =
    omap (task_report virt_to_phys) (tasks k) /\
  (forall ts1 ts2 lg1 lg2 lg,
     report_lines (emitted (cr3_dump_init virt_to_phys)
                     {| tasks := ts1 ++ ts2; log_buf := lg |}) =
     report_lines (emitted (cr3_dump_init virt_to_phys)
                     {| tasks := ts1; log_buf := lg1 |}) ++
     report_lines (emitted (cr3_dump_init virt_to_phys)
                     {| tasks := ts2; log_buf := lg2 |})) /\
  omap (fun r => fst <$> parse_report (text r))
       (report_lines (emitted (cr3_dump_init virt_to_phys) k)) =
    (fun t => (pid t, c_str (comm t))) <$>
      filter (fun t => has_mm t = true) (tasks k).
Proof.
  split; [apply cr3_dump_init_report_lines|]. split.
  - intros. rewrite !cr3_dump_init_report_lines. apply omap_app.
  - rewrite cr3_dump_init_report_lines.
    induction (tasks k) as [|t ts IH]; [reflexivity|].
    cbn [omap list_omap].
    destruct (has_mm t) eqn:Hmm.
    + rewrite filter_cons_True by assumption.
      destruct (task_report_has_mm virt_to_phys t) as (m & _ & ->);
        [now apply bool_decide_eq_true in Hmm|].
      cbn [omap list_omap text fmap list_fmap]. rewrite parse_report_line.
      cbn. now rewrite <- IH.
    + rewrite filter_cons_False by congruence.
      now rewrite (has_mm_false virt_to_phys t Hmm).
Qed.

(** C9, as amended.  [cr3_dump_init] returns the constant 0 and
    [cr3_dump_exit] returns nothing.  Either leaves the process table,
    with every handle and descriptor in it, as it was; the final state is
    the initial one with the emitted records appended to the log: the
    banner and one line per process with a descriptor for
    [cr3_dump_init], the banner alone for [cr3_dump_exit]. *)
Theorem only_effect_is_the_log k :
  eval (cr3_dump_init virt_to_phys) k = RInt 0 /\
  exec (cr3_dump_init virt_to_phys) k =
    {| tasks := tasks k;
       log_buf := log_buf k ++
         banner_loaded :: omap (task_report virt_to_phys) (tasks k) |} /\
  length (omap (task_report virt_to_phys) (tasks k)) =
    length (filter (fun t => has_mm t = true) (tasks k)) /\
  eval cr3_dump_exit k = RVoid /\
  exec cr3_dump_exit k =
    {| tasks := tasks k; log_buf := log_buf k ++ [banner_unloaded] |}.
Proof.
  unfold eval, exec. rewrite cr3_dump_init_run, cr3_dump_exit_run.
  repeat split. apply length_omap_task_report.
Qed.

(** C10. [cr3_dump_init] is total and returns 0 on every process table
    and for every translation; the state it ends in is reached by running
    the loop body once on each process of the table, first to last, after
    the banner is printed. *)
Theorem init_returns_zero k :
  exists k',
    cr3_dump_init virt_to_phys k = (RInt 0, k') /\
    k' = foldl (fun s t => exec (cr3_dump_task virt_to_phys t) s)
               (exec (printk (KERN_INFO +:+ "=== [CR3 Dump Module Loaded] ===" +:+ nl) []) k)
               (tasks k).
Proof.
  eexists. split; [apply cr3_dump_init_run|].
  rewrite <- iterate_foldl. unfold exec.
  rewrite printk_info, iterate_cr3_dump_task. cbn [snd tasks log_buf].
  now rewrite <- app_assoc.
Qed.

End claims.

(** ** The claims on the concrete host *)

Lemma process_without_descriptor_is_skipped_witness :
  (forall k, cr3_dump_task direct_map zombie_proc k = (tt, k)) /\
  (forall k, emitted (cr3_dump_task direct_map zombie_proc) k = []) /\
  (forall ts1 ts2 lg,
     eval (cr3_dump_init direct_map)
          {| tasks := ts1 ++ zombie_proc :: ts2; log_buf := lg |} = RInt 0 /\
     emitted (cr3_dump_init direct_map)
             {| tasks := ts1 ++ zombie_proc :: ts2; log_buf := lg |} =
     emitted (cr3_dump_init direct_map)
             {| tasks := ts1 ++ ts2; log_buf := lg |}).
Proof.
  apply (process_without_descriptor_is_skipped direct_map zombie_proc); reflexivity.
Defined.


Lemma scenario_output_witness :
  emitted (cr3_dump_init direct_map) scenario =
  [ {| level := LOGLEVEL_INFO;
       text := "=== [CR3 Dump Module Loaded] ===" +:+ nl |};
    {| level := LOGLEVEL_INFO;
       text := "PID: 1 | Comm: init | CR3 (PGD phys): 0x1000" +:+ nl |};
    {| level := LOGLEVEL_INFO;
       text := "PID: 50 | Comm: worker | CR3 (PGD phys): 0x2000" +:+ nl |} ].
Proof.
  apply (scenario_output direct_map D1 D2 []); reflexivity.
Defined.

Lemma report_line_format_witness :
  exists t m,
    t ∈ tasks scenario /\ resolve_mm t = Some m /\
    level (Build_record 6 ("PID: 50 | Comm: worker | CR3 (PGD phys): 0x2000" +:+ nl))
      = LOGLEVEL_INFO /\
    text (Build_record 6 ("PID: 50 | Comm: worker | CR3 (PGD phys): 0x2000" +:+ nl))
      = "PID: " +:+ fmt_d (pid t) +:+ " | Comm: " +:+ c_str (comm t) +:+
        " | CR3 (PGD phys): 0x" +:+ fmt_lx (direct_map (pgd m)) +:+ nl /\
    HexadecimalString.NilZero.uint_of_string (fmt_lx (direct_map (pgd m))) =
      Some (N.to_hex_uint (Z.to_N (to_ulong (direct_map (pgd m))))) /\
    parse_report
      (text (Build_record 6 ("PID: 50 | Comm: worker | CR3 (PGD phys): 0x2000" +:+ nl)))
      = Some (pid t, c_str (comm t), to_ulong (direct_map (pgd m))).
Proof.
  apply (report_line_format direct_map scenario).
  - vm_compute. right. right. left.
  - reflexivity.
Defined.

(** C9 as the specification states it asks for no return value from
    activation; the entry point returns an integer. *)
Lemma init_has_a_return_value :
  ~ (eval (cr3_dump_init direct_map) scenario = RVoid /\
     exec (cr3_dump_init direct_map) scenario =
       {| tasks := tasks scenario;
          log_buf := log_buf scenario ++
            banner_loaded :: omap (task_report direct_map) (tasks scenario) |}).
Proof. intros [H _]. vm_compute in H. discriminate H. Qed.

(** * Further properties of the module *)

Section further.

Variable virt_to_phys : Z -> Z.

Lemma task_report_fields t r :
  task_report virt_to_phys t = Some r ->
  exists m, resolve_mm t = Some m /\
    level r = LOGLEVEL_INFO /\
    parse_report (text r) =
      Some (pid t, c_str (comm t), to_ulong (virt_to_phys (pgd m))).
Proof.
  unfold task_report. destruct (resolve_mm t) as [m|]; [|discriminate].
  cbn. intros [= <-]. exists m. repeat split. apply parse_report_line.
Qed.

Lemma task_report_None t :
  task_report virt_to_phys t = None <-> mm t = None /\ active_mm t = None.
Proof.
  split; [|intros []; now apply task_report_no_mm].
  unfold task_report, resolve_mm.
  destruct (mm t); [discriminate|]. now destruct (active_mm t).
Qed.

(** X1. A run emits one record more than there are processes with a
    primary or fallback descriptor: the banner and one line for each of
    them. *)
Theorem record_count k :
  length (emitted (cr3_dump_init virt_to_phys) k) =
    S (length (filter (fun t => has_mm t = true) (tasks k))) /\
  length (report_lines (emitted (cr3_dump_init virt_to_phys) k)) =
    length (filter (fun t => has_mm t = true) (tasks k)).
Proof.
  rewrite cr3_dump_init_report_lines, cr3_dump_init_emitted. cbn [length].
  now rewrite length_omap_task_report.
Qed.

(** X2. Every record either entry point writes carries the level of
    [KERN_INFO]. *)
Theorem all_records_info k :
  Forall (fun r => level r = LOGLEVEL_INFO)
         (emitted (cr3_dump_init virt_to_phys) k) /\
  Forall (fun r => level r = LOGLEVEL_INFO) (emitted cr3_dump_exit k).
Proof.
  rewrite cr3_dump_init_emitted, cr3_dump_exit_emitted. split.
  - constructor; [reflexivity|]. apply Forall_forall. intros r Hr.
    apply list_elem_of_omap in Hr as (t & _ & Ht).
    now apply task_report_fields in Ht as (m & _ & Hl & _).
  - now constructor.
Qed.

(** X3. The line format is unambiguous: when the loop body writes the
    same output for two tasks that have a descriptor, the two tasks have
    the same pid, the same name, and the same translated root as an
    [unsigned long]. *)
Theorem equal_lines_equal_fields t1 t2 m1 m2 k1 k2 :
  resolve_mm t1 = Some m1 ->
  resolve_mm t2 = Some m2 ->
  emitted (cr3_dump_task virt_to_phys t1) k1 =
  emitted (cr3_dump_task virt_to_phys t2) k2 ->
  pid t1 = pid t2 /\
  c_str (comm t1) = c_str (comm t2) /\
  to_ulong (virt_to_phys (pgd m1)) = to_ulong (virt_to_phys (pgd m2)).
Proof.
  intros H1 H2. rewrite !cr3_dump_task_emitted. unfold task_report.
  rewrite H1, H2. cbn -[report_line]. intros Heq.
  apply (f_equal (fun l => (fun r => parse_report (text r)) <$> l)) in Heq.
  cbn -[report_line parse_report] in Heq. rewrite !parse_report_line in Heq.
  now injection Heq as -> -> ->.
Qed.

(** X5. The address read back from the line of a task is the translated
    root of its resolved descriptor reduced to 64 bits; it is the
    translated root itself when that fits an [unsigned long]. *)
Theorem address_field_range t m k :
  resolve_mm t = Some m ->
  exists r a,
    emitted (cr3_dump_task virt_to_phys t) k = [r] /\
    parse_report (text r) = Some (pid t, c_str (comm t), a) /\
    0 <= a < 2 ^ 64 /\
    a = virt_to_phys (pgd m) mod 2 ^ 64 /\
    (0 <= virt_to_phys (pgd m) < 2 ^ 64 -> a = virt_to_phys (pgd m)).
Proof.
  intros Hm. rewrite cr3_dump_task_emitted. unfold task_report. rewrite Hm.
  eexists _, _. split; [reflexivity|]. cbn [text].
  split; [apply parse_report_line|].
  split; [apply to_ulong_range|]. split; [reflexivity|].
  intros Hr. unfold to_ulong, BITS_PER_LONG. now apply Z.mod_small.
Qed.

(** X6. Loading and unloading the module [n] times leaves the process
    table as it was and appends to the log [n] copies of the same block:
    the activation banner, the per-process lines, the deactivation
    banner. *)
Theorem load_unload_cycles n k :
  Nat.iter n (fun s => exec cr3_dump_exit
                         (exec (cr3_dump_init virt_to_phys) s)) k =
  {| tasks := tasks k;
     log_buf := log_buf k ++
       concat (replicate n
         (banner_loaded :: omap (task_report virt_to_phys) (tasks k)
                        ++ [banner_unloaded])) |}.
Proof.
  induction n as [|n IH].
  - destruct k; cbn. now rewrite app_nil_r.
  - rewrite Nat.iter_succ, IH. unfold exec.
    rewrite cr3_dump_init_run, cr3_dump_exit_run. cbn [snd tasks log_buf].
    f_equal. rewrite <- !app_assoc. f_equal.
    rewrite <- Nat.add_1_r, replicate_add, concat_app.
    cbn. now rewrite app_nil_r.
Qed.

(** X7. A run emits the banner alone exactly when no process of the
    table has a primary or a fallback descriptor; the empty table is one
    such case. *)
Theorem only_banner_iff_no_descriptor k :
  emitted (cr3_dump_init virt_to_phys) k = [banner_loaded] <->
  Forall (fun t => mm t = None /\ active_mm t = None) (tasks k).
Proof.
  rewrite cr3_dump_init_emitted. split.
  - intros [= H]. induction (tasks k) as [|t ts IH]; [constructor|].
    cbn in H. destruct (task_report virt_to_phys t) eqn:Ht; [discriminate|].
    constructor; [now apply task_report_None | now apply IH].
  - intros H. f_equal. induction H as [|t ts Ht _ IH]; [reflexivity|].
    cbn. apply task_report_None in Ht. now rewrite Ht.
Qed.

(** X8. When the pids of the table are pairwise distinct, so are the
    per-process lines: no two processes share a line, and the run shows
    as many different lines as there are processes with a descriptor. *)
Theorem distinct_pids_distinct_lines k :
  NoDup (pid <$> tasks k) ->
  NoDup (text <$> report_lines (emitted (cr3_dump_init virt_to_phys) k)) /\
  size (line_set (emitted (cr3_dump_init virt_to_phys) k)) =
    length (filter (fun t => has_mm t = true) (tasks k)).
Proof.
  intros Hnd.
  assert (Hlines : NoDup (text <$> omap (task_report virt_to_phys) (tasks k))).
  { induction (tasks k) as [|t ts IH]; [constructor|].
    cbn in Hnd. apply NoDup_cons in Hnd as [Hnotin Hnd].
    cbn [omap list_omap].
    destruct (task_report virt_to_phys t) as [r|] eqn:Hr; [|now apply IH].
    cbn. apply NoDup_cons. split; [|now apply IH].
    intros Hin. apply list_elem_of_fmap in Hin as (r' & Htext & Hin).
    apply list_elem_of_omap in Hin as (t' & Ht' & Hr').
    apply task_report_fields in Hr as (m & _ & _ & P).
    apply task_report_fields in Hr' as (m' & _ & _ & P').
    rewrite Htext, P' in P. injection P as Hpid _ _.
    apply Hnotin. rewrite <- Hpid. apply list_elem_of_fmap. now exists t'. }
  unfold line_set. rewrite cr3_dump_init_report_lines.
  split; [exact Hlines|].
  rewrite size_list_to_set by exact Hlines.
  now rewrite length_fmap, length_omap_task_report.
Qed.

(** X9. Yielding the same processes in another order permutes the
    per-process lines: none is lost and none is added. *)
Theorem permuted_table_permuted_lines k ts' lg :
  tasks k ≡ₚ ts' ->
  report_lines (emitted (cr3_dump_init virt_to_phys) k) ≡ₚ
  report_lines (emitted (cr3_dump_init virt_to_phys)
                  {| tasks := ts'; log_buf := lg |}).
Proof.
  intros Hperm. rewrite !cr3_dump_init_report_lines. cbn [tasks].
  now rewrite Hperm.
Qed.

(** X10. The name in the line of a task is the name its [comm] array
    holds: when [comm] is a NUL-free name, or that name followed by a NUL
    and any further bytes, the line carries exactly the name; bytes after
    the first NUL never reach the log. *)
Theorem name_field_is_comm t m n k :
  resolve_mm t = Some m ->
  nul_free n = true ->
  (comm t = n \/ exists rest, comm t = n +:+ String "000" rest) ->
  emitted (cr3_dump_task virt_to_phys t) k =
  [ {| level := LOGLEVEL_INFO;
       text := "PID: " +:+ fmt_d (pid t) +:+ " | Comm: " +:+ n +:+
               " | CR3 (PGD phys): 0x" +:+ fmt_lx (virt_to_phys (pgd m)) +:+
               nl |} ] /\
  exists r, emitted (cr3_dump_task virt_to_phys t) k = [r] /\
    parse_report (text r) = Some (pid t, n, to_ulong (virt_to_phys (pgd m))).
Proof.
  intros Hm Hfree Hcomm. rewrite cr3_dump_task_emitted.
  unfold task_report. rewrite Hm. cbn [mbind option_bind option_list].
  destruct (c_str_of_name n Hfree) as [Hn Hrest].
  assert (Hname : c_str (comm t) = n).
  { destruct Hcomm as [-> | [rest ->]]; [exact Hn | apply Hrest]. }
  rewrite Hname. split; [reflexivity|].
  eexists. split; [reflexivity|]. apply parse_report_line.
Qed.

End further.

(** X4. The translation is applied to the roots of resolved descriptors
    and to nothing else: two translations that agree there give the same
    run, whatever they do elsewhere, for instance at the root of a
    fallback descriptor that a primary one shadows. *)
Theorem translation_only_of_resolved vp1 vp2 k :
  (forall t m, t ∈ tasks k -> resolve_mm t = Some m ->
               vp1 (pgd m) = vp2 (pgd m)) ->
  cr3_dump_init vp1 k = cr3_dump_init vp2 k.
Proof.
  intros Hagree. rewrite !cr3_dump_init_run.
  assert (Hrep : forall ts : list task_struct,
             (forall t m, t ∈ ts -> resolve_mm t = Some m ->
                          vp1 (pgd m) = vp2 (pgd m)) ->
             omap (task_report vp1) ts = omap (task_report vp2) ts).
  { induction ts as [|t ts IH]; intros Hts; [reflexivity|].
    cbn [omap list_omap]. rewrite IH by (intros t' m' Ht'; apply Hts; now right).
    f_equal. unfold task_report.
    destruct (resolve_mm t) as [m|] eqn:Hm; [|reflexivity].
    cbn. rewrite (Hts t m); [reflexivity | left | exact Hm]. }
  now rewrite (Hrep (tasks k) Hagree).
Qed.

(** ** The further properties on the concrete host *)

Lemma equal_lines_equal_fields_witness :
  pid init_proc = pid borrower_proc /\
  c_str (comm init_proc) = c_str (comm borrower_proc) /\
  to_ulong (direct_map (pgd D1)) = to_ulong (direct_map (pgd D1)).
Proof.
  apply (equal_lines_equal_fields direct_map init_proc borrower_proc D1 D1
           scenario scenario); reflexivity.
Defined.

Lemma address_field_range_witness :
  exists r a,
    emitted (cr3_dump_task direct_map worker_proc) scenario = [r] /\
    parse_report (text r) = Some (pid worker_proc, c_str (comm worker_proc), a) /\
    0 <= a < 2 ^ 64 /\
    a = direct_map (pgd D2) mod 2 ^ 64 /\
    (0 <= direct_map (pgd D2) < 2 ^ 64 -> a = direct_map (pgd D2)).
Proof.
  apply (address_field_range direct_map worker_proc D2 scenario). reflexivity.
Defined.

Lemma distinct_pids_distinct_lines_witness :
  NoDup (text <$> report_lines (emitted (cr3_dump_init direct_map) scenario)) /\
  size (line_set (emitted (cr3_dump_init direct_map) scenario)) =
    length (filter (fun t => has_mm t = true) (tasks scenario)).
Proof.
  apply (distinct_pids_distinct_lines direct_map scenario).
  cbn. repeat (apply NoDup_cons; split;
    [rewrite ?elem_of_cons, elem_of_nil; intuition discriminate|]).
  apply NoDup_nil_2.
Defined.

Lemma permuted_table_permuted_lines_witness :
  report_lines (emitted (cr3_dump_init direct_map) scenario) ≡ₚ
  report_lines (emitted (cr3_dump_init direct_map)
                  {| tasks := [zombie_proc; worker_proc; init_proc];
                     log_buf := [banner_unloaded] |}).
Proof.
  apply (permuted_table_permuted_lines direct_map scenario
           [zombie_proc; worker_proc; init_proc] [banner_unloaded]).
  exact (Permutation_rev [init_proc; worker_proc; zombie_proc]).
Defined.

Lemma translation_only_of_resolved_witness :
  cr3_dump_init direct_map {| tasks := [both_proc]; log_buf := [] |} =
  cr3_dump_init patched_map {| tasks := [both_proc]; log_buf := [] |}.
Proof.
  apply (translation_only_of_resolved direct_map patched_map).
  intros t m Ht Hm. cbn in Ht. apply list_elem_of_singleton in Ht. subst t.
  injection Hm as <-. reflexivity.
Defined.

Lemma name_field_is_comm_witness :
  emitted (cr3_dump_task direct_map stale_proc) scenario =
  [ {| level := LOGLEVEL_INFO;
       text := "PID: " +:+ fmt_d (pid stale_proc) +:+ " | Comm: " +:+ "init" +:+
               " | CR3 (PGD phys): 0x" +:+ fmt_lx (direct_map (pgd D1)) +:+
               nl |} ] /\
  exists r, emitted (cr3_dump_task direct_map stale_proc) scenario = [r] /\
    parse_report (text r) =
      Some (pid stale_proc, "init", to_ulong (direct_map (pgd D1))).
Proof.
  apply (name_field_is_comm direct_map stale_proc D1 "init" scenario).
  - reflexivity.
  - reflexivity.
  - right. exists "-helper". reflexivity.
Defined.
